(** * data_validation/config_manager.py: the ConfigManager of the data validator

    A shallow embedding of [ConfigManager].  The Python configuration dict
    is a [gmap string pyval]; Python values that the module stores or reads
    are the inductive [pyval]; raised exceptions are the [Err] branch of a
    small error monad [result]; the [logging] module is an explicit list of
    emitted messages threaded through the builders. *)

From Stdlib Require Import String List.
From stdpp Require Import base gmap strings list.

Local Set Warnings "-register-all".
Open Scope string_scope.

(** ** Python values and exceptions *)

Inductive pyval : Type :=
  | PNone : pyval
  | PBool : bool -> pyval
  | PInt : Z -> pyval
  | PStr : string -> pyval
  | PList : list pyval -> pyval
  | PDict : list (string * pyval) -> pyval.

(** Python truthiness ([bool(v)]), used by [a or b] and [a and b]. *)
Definition truthy (v : pyval) : bool :=
  match v with
  | PNone => false
  | PBool b => b
  | PInt z => negb (Z.eqb z 0)
  | PStr s => negb (String.eqb s "")
  | PList l => negb (Nat.eqb (length l) 0)
  | PDict d => negb (Nat.eqb (length d) 0)
  end.

(** Python's [a or b]: [a] when it is truthy, else [b] (evaluated lazily). *)
Definition py_or (a b : pyval) : pyval := if truthy a then a else b.

Inductive py_error : Type :=
  | KeyError : string -> py_error
  | TypeError : string -> py_error
  | ValueError : string -> py_error
  | NameError : string -> py_error
  | ClientError : string -> py_error.

Inductive result (A : Type) : Type :=
  | Ok : A -> result A
  | Err : py_error -> result A.
Arguments Ok {A} _.
Arguments Err {A} _.

Global Instance result_ret : MRet result := fun _ x => Ok x.
Global Instance result_bind : MBind result :=
  fun _ _ f m => match m with Ok x => f x | Err e => Err e end.

(** Python's [+] on the values the module adds together. *)
Definition py_add (a b : pyval) : result pyval :=
  match a, b with
  | PList l1, PList l2 => Ok (PList (l1 ++ l2))
  | PStr s1, PStr s2 => Ok (PStr (s1 ++ s2))
  | PInt z1, PInt z2 => Ok (PInt (z1 + z2))
  | _, _ => Err (TypeError "unsupported operand type(s) for +")
  end.

(** Python's [x in xs] on a list of strings. *)
Definition py_in (x : string) (xs : list string) : bool :=
  existsb (String.eqb x) xs.

(** ** Keys of [data_validation.consts]

    Modelled from the spec: the module [data_validation.consts] is not part
    of the sources; these are the key strings of its configuration
    constants.  The proofs only use that the keys are pairwise distinct. *)
Definition CONFIG_TYPE := "type".
Definition CONFIG_SOURCE_CONN := "source_conn".
Definition CONFIG_TARGET_CONN := "target_conn".
Definition CONFIG_SCHEMA_NAME := "schema_name".
Definition CONFIG_TABLE_NAME := "table_name".
Definition CONFIG_TARGET_SCHEMA_NAME := "target_schema_name".
Definition CONFIG_TARGET_TABLE_NAME := "target_table_name".
Definition CONFIG_AGGREGATES := "aggregates".
Definition CONFIG_GROUPED_COLUMNS := "grouped_columns".
Definition CONFIG_SOURCE_COLUMN := "source_column".
Definition CONFIG_TARGET_COLUMN := "target_column".
Definition CONFIG_FIELD_ALIAS := "field_alias".
Definition CONFIG_CAST := "cast".
Definition CONFIG_LIMIT := "limit".

(** ** The configuration document and its accessors *)

Abbreviation config := (gmap string pyval).

(** [d[k]]: raises [KeyError] when the key is absent. *)
Definition dict_getitem (d : config) (k : string) : result pyval :=
  match d !! k with Some v => Ok v | None => Err (KeyError k) end.

(** [d.get(k)]: [None] when the key is absent. *)
Definition dict_get (d : config) (k : string) : pyval :=
  match d !! k with Some v => v | None => PNone end.

Definition get_validation_type (c : config) : result pyval :=
  dict_getitem c CONFIG_TYPE.

Definition get_aggregates (c : config) : pyval :=
  py_or (dict_get c CONFIG_AGGREGATES) (PList []).

Definition append_aggregates (aggregate_configs : list pyval) (c : config)
  : result config :=
  v ← py_add (get_aggregates c) (PList aggregate_configs);
  mret (<[CONFIG_AGGREGATES := v]> c).

Definition get_query_groups (c : config) : pyval :=
  py_or (dict_get c CONFIG_GROUPED_COLUMNS) (PList []).

Definition append_query_groups (grouped_column_configs : list pyval) (c : config)
  : result config :=
  v ← py_add (get_query_groups c) (PList grouped_column_configs);
  mret (<[CONFIG_GROUPED_COLUMNS := v]> c).

Definition get_source_schema (c : config) : result pyval :=
  dict_getitem c CONFIG_SCHEMA_NAME.

Definition get_source_table (c : config) : result pyval :=
  dict_getitem c CONFIG_TABLE_NAME.

(** [d.get(k) or d[k']]: the right operand is evaluated only when the left
    one is falsy. *)
Definition get_or_item (c : config) (k k' : string) : result pyval :=
  let v := dict_get c k in
  if truthy v then Ok v else dict_getitem c k'.

Definition get_target_schema (c : config) : result pyval :=
  get_or_item c CONFIG_TARGET_SCHEMA_NAME CONFIG_SCHEMA_NAME.

Definition get_target_table (c : config) : result pyval :=
  get_or_item c CONFIG_TARGET_TABLE_NAME CONFIG_TABLE_NAME.

Definition get_query_limit (c : config) : pyval :=
  dict_get c CONFIG_LIMIT.

(** ** Schema handles and clients (the Ibis layer)

    A table handle exposes the table name ([table.op().name]), its columns
    in schema order ([table.columns]) and the declared type of each column
    ([str(table[column].type())]).  A client resolves a table name and a
    database to a handle, or raises. *)

Record table : Type := mk_table {
  tbl_name : string;
  columns : list string;
  col_type : string -> string;
}.

Definition client : Type := pyval -> pyval -> result table.

(** ** The ConfigManager object *)

Record ConfigManager : Type := mk_cm {
  cm_config : config;
  source_client : client;
  target_client : client;
  source_table : table;
  target_table : table;
  verbose : bool;
}.

(** [ConfigManager.__init__]: both handles are resolved through
    [self.source_client.table(name, database=schema)]; the arguments are
    evaluated left to right. *)
Definition ConfigManager_init (cfg : config) (sc tc : client) (verb : bool)
  : result ConfigManager :=
  stbl ← get_source_table cfg;
  ssch ← get_source_schema cfg;
  src ← sc stbl ssch;
  ttbl ← get_target_table cfg;
  tsch ← get_target_schema cfg;
  tgt ← sc ttbl tsch;
  mret (mk_cm cfg sc tc src tgt verb).

(** [ConfigManager.build_config_manager]: the dict literal is evaluated
    key by key, then the constructor runs. *)
Definition build_config_manager (config_type source_conn target_conn : pyval)
    (sc tc : client) (table_obj : config) (verb : bool)
  : result ConfigManager :=
  schema ← dict_getitem table_obj CONFIG_SCHEMA_NAME;
  tname ← dict_getitem table_obj CONFIG_TABLE_NAME;
  tschema ← get_or_item table_obj CONFIG_TARGET_SCHEMA_NAME CONFIG_SCHEMA_NAME;
  ttname ← get_or_item table_obj CONFIG_TARGET_TABLE_NAME CONFIG_TABLE_NAME;
  let cfg : config :=
    <[CONFIG_TARGET_TABLE_NAME := ttname]>
    (<[CONFIG_TARGET_SCHEMA_NAME := tschema]>
    (<[CONFIG_TABLE_NAME := tname]>
    (<[CONFIG_SCHEMA_NAME := schema]>
    (<[CONFIG_TARGET_CONN := target_conn]>
    (<[CONFIG_SOURCE_CONN := source_conn]>
    (<[CONFIG_TYPE := config_type]> ∅)))))) in
  ConfigManager_init cfg sc tc verb.

(** ** Methods that run against the process: the manager and the log

    [logging.info] appends to [w_log].  A raised exception leaves the
    effects done before it in place. *)

Record World : Type := mk_world {
  w_cm : ConfigManager;
  w_log : list string;
}.

Definition M (A : Type) : Type := World -> result A * World.

(** The grouped-column descriptor dict. *)
Definition grouped_column_config (column : string) : pyval :=
  PDict [(CONFIG_SOURCE_COLUMN, PStr column);
         (CONFIG_TARGET_COLUMN, PStr column);
         (CONFIG_FIELD_ALIAS, PStr column);
         (CONFIG_CAST, PNone)].

(** The [for column in grouped_columns] loop; [acc] is
    [grouped_column_configs]. *)
Fixpoint grouped_columns_loop (src : table) (grouped_columns : list string)
    (acc : list pyval) : result (list pyval) :=
  match grouped_columns with
  | [] => Ok acc
  | column :: rest =>
      if negb (py_in column (columns src))
      then Err (ValueError ("GroupedColumn DNE: " ++ tbl_name src ++ "." ++ column))
      else grouped_columns_loop src rest (acc ++ [grouped_column_config column])
  end.

Definition build_config_grouped_columns (grouped_columns : list string)
  : M (list pyval) :=
  fun w => (grouped_columns_loop (source_table (w_cm w)) grouped_columns [], w).

(** The aggregate descriptor dict. *)
Definition aggregate_config (agg_type column : string) : pyval :=
  PDict [(CONFIG_SOURCE_COLUMN, PStr column);
         (CONFIG_TARGET_COLUMN, PStr column);
         (CONFIG_FIELD_ALIAS, PStr (agg_type ++ "__" ++ column));
         (CONFIG_TYPE, PStr agg_type)].

(** [supported_types and str(source_table[column].type()) not in
    supported_types]; [None] is Python's [None], [Some ts] a list. *)
Definition unsupported_type (supported_types : option (list string)) (ty : string)
  : bool :=
  match supported_types with
  | None | Some [] => false
  | Some ts => negb (py_in ty ts)
  end.

(** The [for column in self.source_table.columns] loop; [acc] is
    [aggregate_configs] and [log] the logging output. *)
Fixpoint aggregates_loop (agg_type : string) (src tgt : table)
    (whitelist_columns : list string) (supported_types : option (list string))
    (cols : list string) (acc : list pyval) (log : list string)
  : list pyval * list string :=
  match cols with
  | [] => (acc, log)
  | column :: rest =>
      if negb (py_in column whitelist_columns) then
        aggregates_loop agg_type src tgt whitelist_columns supported_types rest acc log
      else if negb (py_in column (columns tgt)) then
        aggregates_loop agg_type src tgt whitelist_columns supported_types rest acc
          (log ++ ["Skipping Agg " ++ agg_type ++ ": " ++ tbl_name src ++ "." ++ column])
      else if unsupported_type supported_types (col_type src column) then
        aggregates_loop agg_type src tgt whitelist_columns supported_types rest acc log
      else
        aggregates_loop agg_type src tgt whitelist_columns supported_types rest
          (acc ++ [aggregate_config agg_type column]) log
  end.

(** [build_config_aggregates].  The module imports [logging] and [consts]
    only: the name [json] in [json.loads(arg_value)] is unbound, so the
    explicit-selection branch raises [NameError] before any parsing. *)
Definition build_config_aggregates (agg_type arg_value : string)
    (supported_types : option (list string)) : M (list pyval) :=
  fun w =>
    let src := source_table (w_cm w) in
    let tgt := target_table (w_cm w) in
    if String.eqb arg_value "*" then
      let '(out, log') :=
        aggregates_loop agg_type src tgt (columns src) supported_types
          (columns src) [] (w_log w) in
      (Ok out, mk_world (w_cm w) log')
    else (Err (NameError "json"), w).

(** ** Concrete schemas used by the examples and witnesses *)

Definition ty_ab (c : string) : string :=
  if String.eqb c "a" then "int64" else "string".

Definition src_ab : table := mk_table "t" ["a"; "b"] ty_ab.
Definition tgt_a : table := mk_table "t" ["a"] ty_ab.

(** A client that resolves every name to [src_ab]. *)
Definition client_ab : client := fun _ _ => Ok src_ab.

Definition cm_ab : ConfigManager := mk_cm ∅ client_ab client_ab src_ab tgt_a false.
Definition world_ab : World := mk_world cm_ab [].

(** A JSON string literal: the character ["] followed by [s] and ["]. *)
Definition dq : string := String (Ascii.ascii_of_nat 34) EmptyString.
Definition json_str (s : string) : string := dq ++ s ++ dq.

(** ** Examples from the spec's testable properties *)

Example agg_sum_int :
  fst (build_config_aggregates "sum" "*" (Some ["int64"]) world_ab)
  = Ok [aggregate_config "sum" "a"].
Proof. reflexivity. Qed.

Example agg_sum_int_log :
  w_log (snd (build_config_aggregates "sum" "*" (Some ["int64"]) world_ab))
  = ["Skipping Agg sum: t.b"].
Proof. reflexivity. Qed.

Example grouped_a_c :
  fst (build_config_grouped_columns ["a"; "c"] world_ab)
  = Err (ValueError "GroupedColumn DNE: t.c").
Proof. reflexivity. Qed.

Example grouped_a_a :
  fst (build_config_grouped_columns ["a"; "a"] world_ab)
  = Ok [grouped_column_config "a"; grouped_column_config "a"].
Proof. reflexivity. Qed.

(** ** Loop lemmas *)

Section AggregatesLoop.
Variables (agg_type : string) (src tgt : table).
Variables (whitelist_columns : list string) (supported_types : option (list string)).

(** A column is emitted when it is on the target and passes the type test. *)
Definition emitted (column : string) : bool :=
  py_in column (columns tgt)
  && negb (unsupported_type supported_types (col_type src column)).

Lemma aggregates_loop_out (cols : list string) (acc : list pyval) (log : list string) :
  (forall c, In c cols -> py_in c whitelist_columns = true) ->
  fst (aggregates_loop agg_type src tgt whitelist_columns supported_types cols acc log) = (acc ++ map (aggregate_config agg_type) (List.filter emitted cols))%list.
Proof.
  revert acc log. induction cols as [|c cols IH]; intros acc log Hwl.
  - simpl. by rewrite app_nil_r.
  - change (List.filter emitted (c :: cols))
      with (if emitted c then c :: List.filter emitted cols else List.filter emitted cols).
    cbn [aggregates_loop]. rewrite (Hwl c (or_introl eq_refl)). cbn [negb].
    assert (Hrest : forall c', In c' cols -> py_in c' whitelist_columns = true)
      by (intros; apply Hwl; by right).
    destruct (emitted c) eqn:He; unfold emitted in He;
      destruct (py_in c (columns tgt)); cbn [negb andb] in *;
      destruct (unsupported_type supported_types (col_type src c)); cbn [negb andb] in *;
      try discriminate; rewrite IH by done; cbn [map]; try done.
    by rewrite <- app_assoc.
Qed.

Lemma aggregates_loop_log_indep (cols : list string) (acc : list pyval)
    (log log' : list string) :
  fst (aggregates_loop agg_type src tgt whitelist_columns supported_types cols acc log) = fst (aggregates_loop agg_type src tgt whitelist_columns supported_types cols acc log').
Proof.
  revert acc log log'. induction cols as [|c cols IH]; intros acc log log'; simpl.
  - done.
  - destruct (py_in c whitelist_columns); simpl; [|apply IH].
    destruct (py_in c (columns tgt)); simpl; [|apply IH].
    destruct (unsupported_type supported_types (col_type src c)); apply IH.
Qed.

End AggregatesLoop.

Lemma py_in_In (x : string) (xs : list string) : In x xs -> py_in x xs = true.
Proof.
  intros Hin. unfold py_in. apply existsb_exists. exists x.
  split; [done | apply String.eqb_refl].
Qed.

Lemma py_in_false (x : string) (xs : list string) : py_in x xs = false -> ~ In x xs.
Proof. intros Hf Hin. rewrite (py_in_In x xs Hin) in Hf. discriminate. Qed.

Lemma grouped_columns_loop_ok (src : table) (cols : list string) (acc : list pyval) :
  Forall (fun c => py_in c (columns src) = true) cols ->
  grouped_columns_loop src cols acc = Ok (acc ++ map grouped_column_config cols)%list.
Proof.
  revert acc. induction cols as [|c cols IH]; intros acc Hall; simpl.
  - by rewrite app_nil_r.
  - inversion Hall as [|? ? Hc Hrest]; subst. rewrite Hc. simpl.
    rewrite IH by done. by rewrite <- app_assoc.
Qed.

Lemma grouped_columns_loop_missing (src : table) (cols : list string) (acc : list pyval) :
  (exists c, In c cols /\ py_in c (columns src) = false) ->
  exists c, In c cols /\ py_in c (columns src) = false /\
    grouped_columns_loop src cols acc
    = Err (ValueError ("GroupedColumn DNE: " ++ tbl_name src ++ "." ++ c)).
Proof.
  revert acc. induction cols as [|c cols IH]; intros acc [c0 [Hin Hc0]].
  - destruct Hin.
  - simpl. destruct (py_in c (columns src)) eqn:Hc; simpl.
    + destruct Hin as [-> | Hin]; [congruence|].
      destruct (IH (acc ++ [grouped_column_config c])%list) as [c' [Hin' [Hc' Heq]]].
      { by exists c0. }
      exists c'. split; [by right | by split].
    + exists c. split; [by left | by split].
Qed.

(** ** C1: the aggregate builder with the wildcard selection *)

(** The claim as stated fails for a supplied empty type whitelist: the guard
    [supported_types and ...] treats an empty list like no whitelist, so the
    column "a" (type int64, present on both sides) is emitted although the
    claim demands that its type be a member of the empty whitelist. *)
Lemma build_config_aggregates_empty_whitelist_cex :
  fst (build_config_aggregates "sum" "*" (Some []) world_ab)
    = Ok [aggregate_config "sum" "a"]
  /\ fst (build_config_aggregates "sum" "*" (Some []) world_ab)
    <> Ok (map (aggregate_config "sum")
             (List.filter (fun c => py_in c (columns tgt_a) && py_in (ty_ab c) [])
                (columns src_ab))).
Proof. split; [reflexivity | discriminate]. Qed.

(** C1 (amended): with the wildcard selection ["*"], the aggregate builder
    returns, in source-schema order, one descriptor [aggregate_config] (source
    name = target name = the column, alias ["{agg_type}__{column}"], type =
    [agg_type]) for each source column that is also a target column and,
    when a non-empty type whitelist is supplied, whose source type is in it;
    an absent or empty whitelist puts no restriction on types.  The result is
    [Ok] (possibly the empty list), never an error. *)
Theorem build_config_aggregates_star (w : World) (agg_type : string)
    (supported_types : option (list string)) :
  let src := source_table (w_cm w) in
  let tgt := target_table (w_cm w) in
  fst (build_config_aggregates agg_type "*" supported_types w)
  = Ok (map (aggregate_config agg_type)
          (List.filter (fun c =>
             py_in c (columns tgt)
             && match supported_types with
                | None | Some [] => true
                | Some ts => py_in (col_type src c) ts
                end)
             (columns src))).
Proof.
  cbv zeta. unfold build_config_aggregates. rewrite String.eqb_refl.
  pose proof (aggregates_loop_out agg_type (source_table (w_cm w))
    (target_table (w_cm w)) (columns (source_table (w_cm w))) supported_types
    (columns (source_table (w_cm w))) [] (w_log w)) as Hout.
  destruct (aggregates_loop _ _ _ _ _ _ _ _) as [out log'].
  simpl in *. rewrite Hout by (intros; by apply py_in_In).
  do 2 f_equal. apply filter_ext. intros c. unfold emitted.
  destruct supported_types as [[|t ts]|]; simpl;
    [by rewrite andb_true_r | by rewrite negb_involutive | by rewrite andb_true_r].
Qed.

(** C2 (code_bug): an explicit, well-formed JSON selection naming a column
    that the source schema lacks raises [NameError] for the unbound module
    name [json]; the claim says such a selection never raises. *)
Theorem build_config_aggregates_explicit_raises :
  build_config_aggregates "sum" ("[" ++ json_str "zz" ++ "]") None world_ab
  = (Err (NameError "json"), world_ab).
Proof. reflexivity. Qed.

(** ** C3: both table handles come from the source client *)

Ltac result_inv H :=
  cbv [mbind result_bind mret result_ret] in H;
  repeat match type of H with
  | context [ match ?m with Ok _ => _ | Err _ => _ end ] =>
      let E := fresh "E" in destruct m eqn:E; [|discriminate H]
  end.

(** C3: [ConfigManager.__init__] resolves the source handle and the target
    handle both with the source client, the target handle from the target
    table and schema names of the document; the target client is only
    stored, and replacing it changes neither handle. *)
Theorem ConfigManager_init_uses_source_client (cfg : config) (sc tc : client)
    (verb : bool) (m : ConfigManager)
    (Hinit : ConfigManager_init cfg sc tc verb = Ok m) :
  (exists stbl ssch, get_source_table cfg = Ok stbl /\ get_source_schema cfg = Ok ssch
     /\ sc stbl ssch = Ok (source_table m))
  /\ (exists ttbl tsch, get_target_table cfg = Ok ttbl /\ get_target_schema cfg = Ok tsch
     /\ sc ttbl tsch = Ok (target_table m))
  /\ target_client m = tc
  /\ (forall tc' : client, exists m', ConfigManager_init cfg sc tc' verb = Ok m'
       /\ source_table m' = source_table m /\ target_table m' = target_table m).
Proof.
  unfold ConfigManager_init in *. result_inv Hinit.
  injection Hinit as <-. cbn [source_table target_table target_client].
  split; [by eauto 6|]. split; [by eauto 6|]. split; [done|].
  intros tc'. cbv [mbind result_bind mret result_ret].
  rewrite E1, E4. by eexists.
Qed.

Definition cfg_ab : config :=
  <[CONFIG_TABLE_NAME := PStr "t"]> (<[CONFIG_SCHEMA_NAME := PStr "s"]> ∅).

Lemma ConfigManager_init_uses_source_client_witness :
  ConfigManager_init cfg_ab client_ab client_ab false
    = Ok (mk_cm cfg_ab client_ab client_ab src_ab src_ab false)
  /\ (exists ttbl tsch, get_target_table cfg_ab = Ok ttbl
       /\ get_target_schema cfg_ab = Ok tsch /\ client_ab ttbl tsch = Ok src_ab).
Proof.
  split; [reflexivity|].
  exact (proj1 (proj2 (ConfigManager_init_uses_source_client cfg_ab client_ab
    client_ab false (mk_cm cfg_ab client_ab client_ab src_ab src_ab false) eq_refl))).
Defined.

(** ** C4: a missing grouped column aborts the whole call *)

(** C4: if some requested name is not a source column, the grouped-column
    builder raises (the [ValueError] "GroupedColumn DNE: table.column") for
    a requested name that is not a source column, and returns no list. *)
Theorem build_config_grouped_columns_missing (w : World)
    (grouped_columns : list string) (c : string)
    (Hin : In c grouped_columns)
    (Hmiss : ~ In c (columns (source_table (w_cm w)))) :
  exists c', In c' grouped_columns /\ ~ In c' (columns (source_table (w_cm w)))
    /\ build_config_grouped_columns grouped_columns w
       = (Err (ValueError ("GroupedColumn DNE: " ++ tbl_name (source_table (w_cm w))
                           ++ "." ++ c')), w).
Proof.
  assert (Hc : py_in c (columns (source_table (w_cm w))) = false).
  { destruct (py_in c _) eqn:Hp; [|done].
    unfold py_in in Hp. apply existsb_exists in Hp as [x [Hx Heq]].
    apply String.eqb_eq in Heq; subst. done. }
  destruct (grouped_columns_loop_missing (source_table (w_cm w)) grouped_columns []
    (ex_intro _ c (conj Hin Hc))) as [c' [Hin' [Hc' Heq]]].
  exists c'. split; [done|]. split; [by apply py_in_false|].
  unfold build_config_grouped_columns. by rewrite Heq.
Qed.

Lemma build_config_grouped_columns_missing_witness :
  In "c" ["a"; "c"] /\ ~ In "c" (columns src_ab)
  /\ exists c', In c' ["a"; "c"] /\ ~ In c' (columns (source_table (w_cm world_ab)))
    /\ build_config_grouped_columns ["a"; "c"] world_ab
       = (Err (ValueError ("GroupedColumn DNE: " ++ tbl_name (source_table (w_cm world_ab))
                           ++ "." ++ c')), world_ab).
Proof.
  assert (Hm : ~ In "c" (columns src_ab)).
  { simpl. intros [H|[H|H]]; discriminate || done. }
  split; [simpl; auto|]. split; [exact Hm|].
  apply (build_config_grouped_columns_missing world_ab ["a"; "c"] "c"); [simpl; auto | exact Hm].
Defined.

(** ** C5: target schema and table fall back to the source values *)

(** C5: on every valid document (one holding the required source schema and
    source table keys, as every document of a constructed manager does),
    [get_target_schema] succeeds and returns the target schema value when
    that key holds a truthy (present, non-empty, non-None) value, and the
    source schema value otherwise; the same holds for [get_target_table]
    with the table names. *)
Theorem get_target_schema_table_fallback (c : config) (s t : pyval)
    (Hs : c !! CONFIG_SCHEMA_NAME = Some s) (Ht : c !! CONFIG_TABLE_NAME = Some t) :
  get_target_schema c
  = Ok (match c !! CONFIG_TARGET_SCHEMA_NAME with
        | Some v => if truthy v then v else s
        | None => s
        end)
  /\ get_target_table c
  = Ok (match c !! CONFIG_TARGET_TABLE_NAME with
        | Some v => if truthy v then v else t
        | None => t
        end).
Proof.
  unfold get_target_schema, get_target_table, get_or_item, dict_get, dict_getitem.
  rewrite Hs, Ht.
  split; [destruct (c !! CONFIG_TARGET_SCHEMA_NAME) as [v|]
         | destruct (c !! CONFIG_TARGET_TABLE_NAME) as [v|]];
    try destruct (truthy v); reflexivity.
Qed.

Lemma get_target_schema_table_fallback_witness :
  let c := <[CONFIG_TARGET_SCHEMA_NAME := PStr ""]> cfg_ab in
  c !! CONFIG_SCHEMA_NAME = Some (PStr "s") /\ c !! CONFIG_TABLE_NAME = Some (PStr "t")
  /\ get_target_schema c = Ok (PStr "s") /\ get_target_table c = Ok (PStr "t").
Proof.
  cbv zeta.
  assert (Hs : (<[CONFIG_TARGET_SCHEMA_NAME := PStr ""]> cfg_ab) !! CONFIG_SCHEMA_NAME
               = Some (PStr "s")) by reflexivity.
  assert (Ht : (<[CONFIG_TARGET_SCHEMA_NAME := PStr ""]> cfg_ab) !! CONFIG_TABLE_NAME
               = Some (PStr "t")) by reflexivity.
  split; [exact Hs|]. split; [exact Ht|].
  exact (get_target_schema_table_fallback _ _ _ Hs Ht).
Defined.

(** ** C6: grouped-column descriptors for columns of the source schema *)

(** C6: when every requested name is a source column, the grouped-column
    builder returns one [grouped_column_config] (source = target = alias =
    the name, cast [None]) per requested name, in request order and with
    duplicates kept, and leaves the world unchanged; the result depends on
    the source table only, not on the target table. *)
Theorem build_config_grouped_columns_ok (w : World) (grouped_columns : list string)
    (Hall : Forall (fun c => In c (columns (source_table (w_cm w)))) grouped_columns) :
  build_config_grouped_columns grouped_columns w
    = (Ok (map grouped_column_config grouped_columns), w)
  /\ (forall w' : World, source_table (w_cm w') = source_table (w_cm w) ->
      build_config_grouped_columns grouped_columns w'
      = (Ok (map grouped_column_config grouped_columns), w')).
Proof.
  assert (Hall' : Forall (fun c => py_in c (columns (source_table (w_cm w))) = true)
                    grouped_columns).
  { eapply Forall_impl; [exact Hall|]. intros c; apply py_in_In. }
  split.
  - unfold build_config_grouped_columns. by rewrite grouped_columns_loop_ok.
  - intros w' Hsrc. unfold build_config_grouped_columns.
    rewrite Hsrc. by rewrite grouped_columns_loop_ok.
Qed.

Lemma build_config_grouped_columns_ok_witness :
  Forall (fun c => In c (columns (source_table (w_cm world_ab)))) ["a"; "a"]
  /\ build_config_grouped_columns ["a"; "a"] world_ab
     = (Ok [grouped_column_config "a"; grouped_column_config "a"], world_ab).
Proof.
  assert (H : Forall (fun c => In c (columns (source_table (w_cm world_ab)))) ["a"; "a"]).
  { repeat constructor. }
  split; [exact H|].
  exact (proj1 (build_config_grouped_columns_ok world_ab ["a"; "a"] H)).
Defined.

(** ** C7: appending twice is appending the concatenation *)

Lemma py_or_list (l : list pyval) : py_or (PList l) (PList []) = PList l.
Proof. unfold py_or. destruct l; done. Qed.

(** C7: [append_aggregates A] followed by [append_aggregates B] gives the
    same outcome as [append_aggregates (A ++ B)]; when the current
    aggregates are a list [l] (the stored list, or [] when absent or
    falsy) the stored value becomes [l ++ A ++ B]; the same holds for
    [append_query_groups]. *)
Theorem append_accumulate (c : config) (A B : list pyval) :
  (append_aggregates A c ≫= append_aggregates B) = append_aggregates (A ++ B)%list c
  /\ match get_aggregates c with
     | PList l => append_aggregates (A ++ B)%list c
                  = Ok (<[CONFIG_AGGREGATES := PList (l ++ A ++ B)%list]> c)
     | _ => exists e, append_aggregates (A ++ B)%list c = Err e
     end
  /\ (append_query_groups A c ≫= append_query_groups B)
     = append_query_groups (A ++ B)%list c
  /\ match get_query_groups c with
     | PList l => append_query_groups (A ++ B)%list c
                  = Ok (<[CONFIG_GROUPED_COLUMNS := PList (l ++ A ++ B)%list]> c)
     | _ => exists e, append_query_groups (A ++ B)%list c = Err e
     end.
Proof.
  unfold append_aggregates, append_query_groups.
  cbv [mbind result_bind mret result_ret].
  repeat split.
  - destruct (get_aggregates c) eqn:Hg; simpl; try done.
    unfold get_aggregates, dict_get. rewrite lookup_insert_eq, py_or_list.
    simpl. by rewrite insert_insert_eq, app_assoc.
  - destruct (get_aggregates c); simpl; eauto.
  - destruct (get_query_groups c) eqn:Hg; simpl; try done.
    unfold get_query_groups, dict_get. rewrite lookup_insert_eq, py_or_list.
    simpl. by rewrite insert_insert_eq, app_assoc.
  - destruct (get_query_groups c); simpl; eauto.
Qed.

(** ** C8: the factory [build_config_manager] *)

(** C8: for a table record with the source schema and table keys,
    [build_config_manager] stores them, stores as target schema and table
    the record's target values when truthy (present and non-empty) and the
    source values otherwise, and returns a manager unless the source client
    raises while resolving a handle; when the record lacks either source
    key the factory raises [KeyError] for it. *)
Theorem build_config_manager_fields (config_type source_conn target_conn : pyval)
    (sc tc : client) (table_obj : config) (verb : bool) :
  (forall s t : pyval,
     table_obj !! CONFIG_SCHEMA_NAME = Some s ->
     table_obj !! CONFIG_TABLE_NAME = Some t ->
     let ts := match table_obj !! CONFIG_TARGET_SCHEMA_NAME with
               | Some v => if truthy v then v else s | None => s end in
     let tt := match table_obj !! CONFIG_TARGET_TABLE_NAME with
               | Some v => if truthy v then v else t | None => t end in
     match build_config_manager config_type source_conn target_conn sc tc table_obj verb with
     | Ok m =>
         cm_config m !! CONFIG_SCHEMA_NAME = Some s
         /\ cm_config m !! CONFIG_TABLE_NAME = Some t
         /\ cm_config m !! CONFIG_TARGET_SCHEMA_NAME = Some ts
         /\ cm_config m !! CONFIG_TARGET_TABLE_NAME = Some tt
         /\ get_target_schema (cm_config m) = Ok ts
         /\ get_target_table (cm_config m) = Ok tt
     | Err e => exists n d, sc n d = Err e
     end
     /\ (forall src tgt : table, sc t s = Ok src -> sc tt ts = Ok tgt ->
         exists m, build_config_manager config_type source_conn target_conn sc tc
                     table_obj verb = Ok m))
  /\ (table_obj !! CONFIG_SCHEMA_NAME = None \/ table_obj !! CONFIG_TABLE_NAME = None ->
      exists k, (k = CONFIG_SCHEMA_NAME \/ k = CONFIG_TABLE_NAME)
        /\ build_config_manager config_type source_conn target_conn sc tc table_obj verb
           = Err (KeyError k)).
Proof.
  split.
  - intros s t Hs Ht ts tt.
    assert (Hts : get_or_item table_obj CONFIG_TARGET_SCHEMA_NAME CONFIG_SCHEMA_NAME = Ok ts).
    { unfold get_or_item, dict_get, dict_getitem, ts.
      destruct (table_obj !! CONFIG_TARGET_SCHEMA_NAME) as [v|]; simpl;
        [destruct (truthy v)|]; by rewrite ?Hs. }
    assert (Htt : get_or_item table_obj CONFIG_TARGET_TABLE_NAME CONFIG_TABLE_NAME = Ok tt).
    { unfold get_or_item, dict_get, dict_getitem, tt.
      destruct (table_obj !! CONFIG_TARGET_TABLE_NAME) as [v|]; simpl;
        [destruct (truthy v)|]; by rewrite ?Ht. }
    assert (Hts' : (if truthy ts then Ok ts else Ok s) = Ok ts).
    { unfold ts. destruct (table_obj !! CONFIG_TARGET_SCHEMA_NAME) as [v|];
        [destruct (truthy v) eqn:Hv; [by rewrite Hv|]|]; by destruct (truthy s). }
    assert (Htt' : (if truthy tt then Ok tt else Ok t) = Ok tt).
    { unfold tt. destruct (table_obj !! CONFIG_TARGET_TABLE_NAME) as [v|];
        [destruct (truthy v) eqn:Hv; [by rewrite Hv|]|]; by destruct (truthy t). }
    clearbody ts tt.
    unfold build_config_manager, dict_getitem at 1 2. rewrite Hs, Ht, Hts, Htt.
    cbv [mbind result_bind mret result_ret].
    unfold ConfigManager_init, get_source_table, get_source_schema, get_target_table,
      get_target_schema, get_or_item, dict_get, dict_getitem.
    cbv [mbind result_bind mret result_ret].
    simplify_map_eq. rewrite Hts', Htt'.
    split.
    + destruct (sc t s) as [src|e] eqn:E1; [|by exists t, s].
      destruct (sc tt ts) as [tgt|e] eqn:E2; [|by exists tt, ts].
      cbn [cm_config]. simplify_map_eq. rewrite Hts', Htt'. done.
    + intros src tgt E1 E2. rewrite E1, E2. by eexists.
  - intros Hmiss. unfold build_config_manager, dict_getitem at 1 2.
    destruct (table_obj !! CONFIG_SCHEMA_NAME) eqn:Hs.
    + destruct Hmiss as [Hs'|Ht]; [congruence|].
      exists CONFIG_TABLE_NAME. split; [by right|]. by rewrite Ht.
    + exists CONFIG_SCHEMA_NAME. split; [by left|]. done.
Qed.

Lemma build_config_manager_fields_witness :
  cfg_ab !! CONFIG_SCHEMA_NAME = Some (PStr "s")
  /\ cfg_ab !! CONFIG_TABLE_NAME = Some (PStr "t")
  /\ exists m, build_config_manager (PStr "Column") PNone PNone client_ab client_ab
                 cfg_ab false = Ok m.
Proof.
  split; [reflexivity|]. split; [reflexivity|].
  exact (proj2 (proj1 (build_config_manager_fields (PStr "Column") PNone PNone
    client_ab client_ab cfg_ab false) (PStr "s") (PStr "t") eq_refl eq_refl)
    src_ab src_ab eq_refl eq_refl).
Defined.

(** ** C9: the aggregate and query-group getters *)

(** C9: on a document without the aggregates key, [append_aggregates X]
    succeeds and [get_aggregates] then returns [X]; [get_aggregates] is
    total, returns a stored list as it is, returns [[]] when the key is
    absent (or holds a falsy value such as [None]) and never returns
    [None]; the same holds for the query groups. *)
Theorem get_append_roundtrip (c : config) (X : list pyval) :
  (c !! CONFIG_AGGREGATES = None ->
     exists c', append_aggregates X c = Ok c' /\ get_aggregates c' = PList X)
  /\ (forall l, c !! CONFIG_AGGREGATES = Some (PList l) -> get_aggregates c = PList l)
  /\ (c !! CONFIG_AGGREGATES = None -> get_aggregates c = PList [])
  /\ get_aggregates c <> PNone
  /\ (c !! CONFIG_GROUPED_COLUMNS = None ->
     exists c', append_query_groups X c = Ok c' /\ get_query_groups c' = PList X)
  /\ (forall l, c !! CONFIG_GROUPED_COLUMNS = Some (PList l) -> get_query_groups c = PList l)
  /\ (c !! CONFIG_GROUPED_COLUMNS = None -> get_query_groups c = PList [])
  /\ get_query_groups c <> PNone.
Proof.
  unfold append_aggregates, append_query_groups, get_aggregates, get_query_groups,
    dict_get, py_or.
  cbv [mbind result_bind mret result_ret].
  repeat split.
  - intros Hn. rewrite Hn. simpl. eexists. split; [reflexivity|].
    rewrite lookup_insert_eq. by destruct X.
  - intros l Hl. rewrite Hl. by destruct l.
  - intros Hn. by rewrite Hn.
  - destruct (c !! CONFIG_AGGREGATES) as [v|]; [destruct (truthy v) eqn:Hv|];
      [intros ->; discriminate | done | done].
  - intros Hn. rewrite Hn. simpl. eexists. split; [reflexivity|].
    rewrite lookup_insert_eq. by destruct X.
  - intros l Hl. rewrite Hl. by destruct l.
  - intros Hn. by rewrite Hn.
  - destruct (c !! CONFIG_GROUPED_COLUMNS) as [v|]; [destruct (truthy v) eqn:Hv|];
      [intros ->; discriminate | done | done].
Qed.

Lemma get_append_roundtrip_witness :
  (∅ : config) !! CONFIG_AGGREGATES = None
  /\ exists c', append_aggregates [PInt 1] ∅ = Ok c' /\ get_aggregates c' = PList [PInt 1].
Proof.
  split; [reflexivity|].
  exact (proj1 (get_append_roundtrip ∅ [PInt 1]) eq_refl).
Defined.

(** ** C10: the builders leave the manager alone and are repeatable *)

(** C10: neither builder changes the manager (hence the document); the
    grouped-column builder changes nothing at all and the aggregate builder
    only appends to the log; the output does not depend on the log, so a
    second call with the same inputs returns the same output. *)
Theorem builders_frame_idempotent (w : World) (grouped_columns : list string)
    (agg_type arg_value : string) (supported_types : option (list string)) :
  snd (build_config_grouped_columns grouped_columns w) = w
  /\ fst (build_config_grouped_columns grouped_columns
            (snd (build_config_grouped_columns grouped_columns w)))
     = fst (build_config_grouped_columns grouped_columns w)
  /\ w_cm (snd (build_config_aggregates agg_type arg_value supported_types w)) = w_cm w
  /\ fst (build_config_aggregates agg_type arg_value supported_types
            (snd (build_config_aggregates agg_type arg_value supported_types w)))
     = fst (build_config_aggregates agg_type arg_value supported_types w)
  /\ (forall log : list string,
        fst (build_config_aggregates agg_type arg_value supported_types
               (mk_world (w_cm w) log))
        = fst (build_config_aggregates agg_type arg_value supported_types w)).
Proof.
  assert (Hlog : forall log,
    fst (build_config_aggregates agg_type arg_value supported_types (mk_world (w_cm w) log))
    = fst (build_config_aggregates agg_type arg_value supported_types w)).
  { intros log. unfold build_config_aggregates. simpl.
    destruct (String.eqb arg_value "*"); [|done].
    pose proof (aggregates_loop_log_indep agg_type (source_table (w_cm w))
      (target_table (w_cm w)) (columns (source_table (w_cm w))) supported_types
      (columns (source_table (w_cm w))) [] log (w_log w)) as Hi.
    destruct (aggregates_loop _ _ _ _ _ _ _ log) as [o1 l1].
    destruct (aggregates_loop _ _ _ _ _ _ _ (w_log w)) as [o2 l2].
    simpl in *. by subst. }
  assert (Hcm : w_cm (snd (build_config_aggregates agg_type arg_value supported_types w))
                = w_cm w).
  { unfold build_config_aggregates.
    destruct (String.eqb arg_value "*"); [|done].
    by destruct (aggregates_loop _ _ _ _ _ _ _ _). }
  split; [done|]. split; [done|]. split; [done|]. split; [|done].
  destruct (snd (build_config_aggregates agg_type arg_value supported_types w))
    as [cm' log'] eqn:Hs.
  simpl in Hcm. subst cm'. apply Hlog.
Qed.

(** * Further properties of the module *)

(** ** Loop lemmas for the log and the grouped-column loop *)

Lemma aggregates_loop_log (agg_type : string) (src tgt : table)
    (whitelist_columns : list string) (supported_types : option (list string))
    (cols : list string) (acc : list pyval) (log : list string) :
  snd (aggregates_loop agg_type src tgt whitelist_columns supported_types cols acc log)
  = (log ++ map (fun c => ("Skipping Agg " ++ agg_type ++ ": " ++ tbl_name src ++ "." ++ c)%string)
              (List.filter (fun c => py_in c whitelist_columns && negb (py_in c (columns tgt)))
                 cols))%list.
Proof.
  revert acc log. induction cols as [|c cols IH]; intros acc log;
    cbn [aggregates_loop List.filter map].
  - by rewrite app_nil_r.
  - destruct (py_in c whitelist_columns); destruct (py_in c (columns tgt));
      cbn [negb andb]; try destruct (unsupported_type _ _);
      rewrite IH; cbn [map]; try done; by rewrite <- app_assoc.
Qed.

Lemma grouped_columns_loop_ok_inv (src : table) (cols : list string)
    (acc out : list pyval) :
  grouped_columns_loop src cols acc = Ok out ->
  Forall (fun c => In c (columns src)) cols.
Proof.
  revert acc. induction cols as [|c cols IH]; intros acc H; [done|].
  simpl in H. destruct (py_in c (columns src)) eqn:Hc; simpl in H; [|discriminate].
  constructor; [|by eapply IH].
  unfold py_in in Hc. apply existsb_exists in Hc as [x [Hx Heq]].
  by apply String.eqb_eq in Heq as ->.
Qed.

Lemma filter_and_map_sublist {A B : Type} (f : A -> B) (p q : A -> bool) (l : list A) :
  map f (List.filter (fun x => p x && q x) l) `sublist_of` map f (List.filter p l).
Proof.
  induction l as [|x l IH]; cbn [List.filter map]; [done|].
  destruct (p x), (q x); cbn [andb map];
    [by apply sublist_skip | by apply sublist_cons | done | done].
Qed.

(** ** X1: appending touches only its own key *)

(** X1: a successful [append_aggregates] changes only the aggregates key of
    the document, and a successful [append_query_groups] only the grouped
    columns key; every other key keeps its value. *)
Theorem append_frame (c c' : config) (xs : list pyval) (k : string) :
  (append_aggregates xs c = Ok c' -> k <> CONFIG_AGGREGATES -> c' !! k = c !! k)
  /\ (append_query_groups xs c = Ok c' -> k <> CONFIG_GROUPED_COLUMNS -> c' !! k = c !! k).
Proof.
  unfold append_aggregates, append_query_groups.
  cbv [mbind result_bind mret result_ret].
  split; intros H Hk;
    [destruct (py_add (get_aggregates c) _) | destruct (py_add (get_query_groups c) _)];
    try discriminate; injection H as <-; by rewrite lookup_insert_ne.
Qed.

Lemma append_frame_witness :
  append_aggregates [PInt 1] cfg_ab = Ok (<[CONFIG_AGGREGATES := PList [PInt 1]]> cfg_ab)
  /\ CONFIG_SCHEMA_NAME <> CONFIG_AGGREGATES
  /\ (<[CONFIG_AGGREGATES := PList [PInt 1]]> cfg_ab) !! CONFIG_SCHEMA_NAME
     = cfg_ab !! CONFIG_SCHEMA_NAME.
Proof.
  assert (Ha : append_aggregates [PInt 1] cfg_ab
               = Ok (<[CONFIG_AGGREGATES := PList [PInt 1]]> cfg_ab)) by reflexivity.
  assert (Hk : CONFIG_SCHEMA_NAME <> CONFIG_AGGREGATES) by discriminate.
  split; [exact Ha|]. split; [exact Hk|].
  exact (proj1 (append_frame cfg_ab _ [PInt 1] CONFIG_SCHEMA_NAME) Ha Hk).
Defined.

(** ** X2: appending to a stored non-list value raises [TypeError] *)

(** X2: when the aggregates key holds a truthy value that is not a list
    (for instance a string), [append_aggregates] raises [TypeError] and
    stores nothing; when the current aggregates are a list (or the key is
    absent or falsy) it succeeds.  The same holds for the query groups. *)
Theorem append_type_error (c : config) (xs : list pyval) (v : pyval)
    (Hv : c !! CONFIG_AGGREGATES = Some v) (Ht : truthy v = true)
    (Hnl : forall l, v <> PList l) :
  append_aggregates xs c = Err (TypeError "unsupported operand type(s) for +").
Proof.
  unfold append_aggregates, get_aggregates, dict_get, py_or. rewrite Hv, Ht.
  cbv [mbind result_bind]. destruct v; try done. by destruct (Hnl l).
Qed.

Lemma append_type_error_witness :
  let c := <[CONFIG_AGGREGATES := PStr "sum"]> cfg_ab in
  c !! CONFIG_AGGREGATES = Some (PStr "sum") /\ truthy (PStr "sum") = true
  /\ append_aggregates [PInt 1] c = Err (TypeError "unsupported operand type(s) for +").
Proof.
  split; [reflexivity|]. split; [reflexivity|].
  apply (append_type_error _ [PInt 1] (PStr "sum")); [reflexivity | reflexivity | discriminate].
Defined.

(** ** The wildcard aggregate builder: output and log *)

Lemma py_in_true_In (x : string) (xs : list string) : py_in x xs = true -> In x xs.
Proof.
  unfold py_in. intros H. apply existsb_exists in H as [y [Hy Heq]].
  by apply String.eqb_eq in Heq as ->.
Qed.

Lemma build_config_aggregates_star_out (w : World) (agg_type : string)
    (supported_types : option (list string)) :
  fst (build_config_aggregates agg_type "*" supported_types w)
  = Ok (map (aggregate_config agg_type)
          (List.filter (emitted (source_table (w_cm w)) (target_table (w_cm w))
                          supported_types)
             (columns (source_table (w_cm w))))).
Proof.
  unfold build_config_aggregates. rewrite String.eqb_refl.
  pose proof (aggregates_loop_out agg_type (source_table (w_cm w))
    (target_table (w_cm w)) (columns (source_table (w_cm w))) supported_types
    (columns (source_table (w_cm w))) [] (w_log w)) as Hout.
  destruct (aggregates_loop _ _ _ _ _ _ _ _) as [out log'].
  simpl in *. by rewrite Hout by (intros; by apply py_in_In).
Qed.

(** X4: with the wildcard selection the aggregate builder logs, after the
    messages already logged, one "Skipping Agg {agg_type}: {table}.{column}"
    message per source column missing from the target schema, in source
    order, and nothing else. *)
Theorem build_config_aggregates_star_log (w : World) (agg_type : string)
    (supported_types : option (list string)) :
  w_log (snd (build_config_aggregates agg_type "*" supported_types w))
  = (w_log w ++
     map (fun c => ("Skipping Agg " ++ agg_type ++ ": "
                    ++ tbl_name (source_table (w_cm w)) ++ "." ++ c)%string)
       (List.filter (fun c => negb (py_in c (columns (target_table (w_cm w)))))
          (columns (source_table (w_cm w)))))%list.
Proof.
  unfold build_config_aggregates. rewrite String.eqb_refl.
  pose proof (aggregates_loop_log agg_type (source_table (w_cm w))
    (target_table (w_cm w)) (columns (source_table (w_cm w))) supported_types
    (columns (source_table (w_cm w))) [] (w_log w)) as Hlog.
  destruct (aggregates_loop _ _ _ _ _ _ _ _) as [out log'].
  simpl in *. rewrite Hlog. do 2 f_equal.
  apply filter_ext_in. intros c Hc. by rewrite (py_in_In c _ Hc).
Qed.

(** X5: every descriptor returned by the wildcard aggregate builder is the
    descriptor of a column that is in the source schema, is in the target
    schema and passes the type-whitelist test. *)
Theorem build_config_aggregates_star_descriptors (w : World) (agg_type : string)
    (supported_types : option (list string)) (out : list pyval)
    (Hout : fst (build_config_aggregates agg_type "*" supported_types w) = Ok out)
    (d : pyval) (Hd : In d out) :
  exists c, d = aggregate_config agg_type c
    /\ In c (columns (source_table (w_cm w)))
    /\ In c (columns (target_table (w_cm w)))
    /\ unsupported_type supported_types (col_type (source_table (w_cm w)) c) = false.
Proof.
  rewrite build_config_aggregates_star_out in Hout. injection Hout as <-.
  apply in_map_iff in Hd as [c [<- Hc]].
  apply filter_In in Hc as [Hsrc He]. unfold emitted in He.
  apply andb_true_iff in He as [Ht Hu].
  exists c. split; [done|]. split; [done|]. split; [by apply py_in_true_In|].
  by apply negb_true_iff.
Qed.

Lemma build_config_aggregates_star_descriptors_witness :
  fst (build_config_aggregates "sum" "*" None world_ab) = Ok [aggregate_config "sum" "a"]
  /\ exists c, aggregate_config "sum" "a" = aggregate_config "sum" c
    /\ In c (columns (source_table (w_cm world_ab)))
    /\ In c (columns (target_table (w_cm world_ab)))
    /\ unsupported_type None (col_type (source_table (w_cm world_ab)) c) = false.
Proof.
  assert (H : fst (build_config_aggregates "sum" "*" None world_ab)
              = Ok [aggregate_config "sum" "a"]) by reflexivity.
  split; [exact H|].
  exact (build_config_aggregates_star_descriptors world_ab "sum" None _ H
           (aggregate_config "sum" "a") (or_introl eq_refl)).
Defined.

(** X6: supplying a type whitelist only removes descriptors: the wildcard
    builder's output with any [supported_types] is a sublist (same order)
    of its output without a whitelist. *)
Theorem build_config_aggregates_whitelist_sublist (w : World) (agg_type : string)
    (supported_types : option (list string)) :
  match fst (build_config_aggregates agg_type "*" supported_types w),
        fst (build_config_aggregates agg_type "*" None w) with
  | Ok o1, Ok o2 => o1 `sublist_of` o2
  | _, _ => False
  end.
Proof.
  rewrite !build_config_aggregates_star_out.
  rewrite (filter_ext (emitted _ _ None) (fun c => py_in c (columns (target_table (w_cm w)))))
    by (intros c; unfold emitted; simpl; apply andb_true_r).
  apply (filter_and_map_sublist (aggregate_config agg_type)
           (fun c => py_in c (columns (target_table (w_cm w))))
           (fun c => negb (unsupported_type supported_types
                             (col_type (source_table (w_cm w)) c)))).
Qed.

(** ** The grouped-column builder succeeds exactly on source columns *)

(** X7: [build_config_grouped_columns] returns a list exactly when every
    requested name is a column of the source schema; the empty request
    always succeeds with the empty list. *)
Theorem build_config_grouped_columns_ok_iff (w : World) (grouped_columns : list string) :
  (exists out, fst (build_config_grouped_columns grouped_columns w) = Ok out)
  <-> Forall (fun c => In c (columns (source_table (w_cm w)))) grouped_columns.
Proof.
  unfold build_config_grouped_columns. simpl. split.
  - intros [out Hout]. by eapply grouped_columns_loop_ok_inv.
  - intros Hall. eexists. apply grouped_columns_loop_ok.
    eapply Forall_impl; [exact Hall|]. intros c; apply py_in_In.
Qed.

(** ** A manager built by the factory *)

(** X8: a manager returned by [build_config_manager] has a document whose
    validation type and connection entries are the arguments, with no
    aggregates, no query groups and no query limit (the getters return
    [[]], [[]] and [None]); it keeps both clients and the verbose flag. *)
Theorem build_config_manager_fresh (config_type source_conn target_conn : pyval)
    (sc tc : client) (table_obj : config) (verb : bool) (m : ConfigManager)
    (Hb : build_config_manager config_type source_conn target_conn sc tc table_obj verb
          = Ok m) :
  get_validation_type (cm_config m) = Ok config_type
  /\ cm_config m !! CONFIG_SOURCE_CONN = Some source_conn
  /\ cm_config m !! CONFIG_TARGET_CONN = Some target_conn
  /\ get_aggregates (cm_config m) = PList []
  /\ get_query_groups (cm_config m) = PList []
  /\ get_query_limit (cm_config m) = PNone
  /\ source_client m = sc /\ target_client m = tc /\ verbose m = verb.
Proof.
  unfold build_config_manager, ConfigManager_init in Hb. result_inv Hb.
  injection Hb as <-. cbn [cm_config source_client target_client verbose].
  unfold get_validation_type, get_aggregates, get_query_groups, get_query_limit,
    dict_get, dict_getitem.
  simplify_map_eq. done.
Qed.

Lemma build_config_manager_fresh_witness :
  build_config_manager (PStr "Column") PNone PNone client_ab client_ab cfg_ab false
    = Ok (mk_cm (<[CONFIG_TARGET_TABLE_NAME := PStr "t"]>
                (<[CONFIG_TARGET_SCHEMA_NAME := PStr "s"]>
                (<[CONFIG_TABLE_NAME := PStr "t"]>
                (<[CONFIG_SCHEMA_NAME := PStr "s"]>
                (<[CONFIG_TARGET_CONN := PNone]>
                (<[CONFIG_SOURCE_CONN := PNone]>
                (<[CONFIG_TYPE := PStr "Column"]> ∅)))))))
             client_ab client_ab src_ab src_ab false)
  /\ get_validation_type (cm_config (mk_cm (<[CONFIG_TARGET_TABLE_NAME := PStr "t"]>
                (<[CONFIG_TARGET_SCHEMA_NAME := PStr "s"]>
                (<[CONFIG_TABLE_NAME := PStr "t"]>
                (<[CONFIG_SCHEMA_NAME := PStr "s"]>
                (<[CONFIG_TARGET_CONN := PNone]>
                (<[CONFIG_SOURCE_CONN := PNone]>
                (<[CONFIG_TYPE := PStr "Column"]> ∅)))))))
             client_ab client_ab src_ab src_ab false)) = Ok (PStr "Column").
Proof.
  match goal with |- ?b = Ok ?m /\ _ =>
    assert (H : b = Ok m) by reflexivity; split; [exact H|];
    exact (proj1 (build_config_manager_fresh _ _ _ _ _ _ _ m H)) end.
Defined.

(** ** The constructor rejects a document without the source keys *)

(** X9: [ConfigManager.__init__] raises [KeyError] for the source table or
    schema key when the document lacks it, whatever the clients are; the
    table key is looked up first. *)
Theorem ConfigManager_init_missing_key (cfg : config) (sc tc : client) (verb : bool)
    (Hmiss : cfg !! CONFIG_TABLE_NAME = None \/ cfg !! CONFIG_SCHEMA_NAME = None) :
  exists k, (k = CONFIG_TABLE_NAME \/ k = CONFIG_SCHEMA_NAME)
    /\ ConfigManager_init cfg sc tc verb = Err (KeyError k)
    /\ (cfg !! CONFIG_TABLE_NAME = None -> k = CONFIG_TABLE_NAME).
Proof.
  unfold ConfigManager_init, get_source_table, get_source_schema, dict_getitem.
  cbv [mbind result_bind].
  destruct (cfg !! CONFIG_TABLE_NAME) eqn:Ht.
  - destruct Hmiss as [H|Hs]; [discriminate|]. rewrite Hs.
    exists CONFIG_SCHEMA_NAME. split; [by right|]. split; [done | discriminate].
  - exists CONFIG_TABLE_NAME. split; [by left|]. done.
Qed.

Lemma ConfigManager_init_missing_key_witness :
  (delete CONFIG_SCHEMA_NAME cfg_ab !! CONFIG_TABLE_NAME = None
   \/ delete CONFIG_SCHEMA_NAME cfg_ab !! CONFIG_SCHEMA_NAME = None)
  /\ exists k, (k = CONFIG_TABLE_NAME \/ k = CONFIG_SCHEMA_NAME)
    /\ ConfigManager_init (delete CONFIG_SCHEMA_NAME cfg_ab) client_ab client_ab false
       = Err (KeyError k)
    /\ (delete CONFIG_SCHEMA_NAME cfg_ab !! CONFIG_TABLE_NAME = None -> k = CONFIG_TABLE_NAME).
Proof.
  assert (H : delete CONFIG_SCHEMA_NAME cfg_ab !! CONFIG_TABLE_NAME = None
              \/ delete CONFIG_SCHEMA_NAME cfg_ab !! CONFIG_SCHEMA_NAME = None)
    by (right; reflexivity).
  split; [exact H|].
  exact (ConfigManager_init_missing_key (delete CONFIG_SCHEMA_NAME cfg_ab)
           client_ab client_ab false H).
Defined.
